(** * Perspective (Comment Analyzer) API shapes

    A development over [src/index.ts].  The file declares no functions: its
    whole content is a set of TypeScript types describing JSON payloads.  A
    TypeScript type denotes a set of JavaScript values, so each declaration is
    embedded as the predicate that decides whether a value has the declared
    shape, and the properties below are statements about these predicates and
    about the passage of conforming values through JSON.

    Layout: JavaScript values, the TypeScript type formers used by the file,
    the JSON boundary, the declarations of [index.ts] in source order, and
    then the lemmas. *)

From Stdlib Require Import Floats.SpecFloat ZArith.
From stdpp Require Import gmap strings list fin_maps.

Set Warnings "-register-all".

(** ** JavaScript values *)

Module JS.

(** A JavaScript [number] is an IEEE 754 binary64 datum: zeros of both signs,
    infinities, NaN and finite values. *)
Abbreviation number := spec_float.

Definition prec : Z := 53.
Definition emax : Z := 1024.

(** The number written as the integer literal [z]. *)
Definition of_Z (z : Z) : number := binary_normalize prec emax z 0 false.

(** [Number.isFinite]. *)
Definition is_finite (n : number) : bool :=
  match n with
  | S754_zero _ | S754_finite _ _ _ => true
  | S754_infinity _ | S754_nan => false
  end.

Definition is_negative_zero (n : number) : bool :=
  match n with
  | S754_zero true => true
  | _ => false
  end.

(** The relational operator [a <= b] on numbers (false when either is NaN). *)
Definition le (a b : number) : bool := SFleb a b.

(** The plain data values: primitives, arrays, and objects with string keys.
    An object is a finite map from property names to values. *)
Inductive value :=
| VUndefined
| VNull
| VBool (b : bool)
| VNumber (n : number)
| VString (s : string)
| VArray (xs : list value)
| VObject (ps : gmap string value).

Definition is_undefined (v : value) : bool :=
  match v with
  | VUndefined => true
  | _ => false
  end.

(** Property read [o.k]: a missing property reads as [undefined]. *)
Definition get (v : value) (k : string) : value :=
  match v with
  | VObject ps => default VUndefined (ps !! k)
  | _ => VUndefined
  end.

(** [Object.hasOwn(o, k)]. *)
Definition has_own (v : value) (k : string) : bool :=
  match v with
  | VObject ps => bool_decide (is_Some (ps !! k))
  | _ => false
  end.

(** A test that holds of every property value of an object. *)
Definition all_values (f : value → bool) (ps : gmap string value) : bool :=
  map_fold (λ _ x acc, f x && acc) true ps.

(** The object literal [{ k1: v1, ..., kn: vn }]. *)
Definition obj (kvs : list (string * value)) : value :=
  VObject (list_to_map kvs).

(** Number of constructors of a value, the measure for induction. *)
Fixpoint size (v : value) : nat :=
  match v with
  | VArray xs => S (foldr (λ x acc, size x + acc) 0 xs)
  | VObject ps => S (map_fold (λ _ x acc, size x + acc) 0 ps)
  | _ => 1
  end.

End JS.

(** ** TypeScript type formers

    A type is the decidable set of values assignable to it.  Only the formers
    that [index.ts] uses are defined.  Assignability is structural: an
    interface constrains the properties it declares and nothing else, and
    with the compiler's default options an optional property may be missing
    or hold [undefined]. *)

Module TS.
Import JS.

Definition type : Type := value → bool.

(** [string], [number], [boolean]. *)
Definition t_string : type :=
  λ v, match v with VString _ => true | _ => false end.

Definition t_number : type :=
  λ v, match v with VNumber _ => true | _ => false end.

Definition t_boolean : type :=
  λ v, match v with VBool _ => true | _ => false end.

(** A string literal type ['s']. *)
Definition t_literal (s : string) : type :=
  λ v, match v with VString s' => bool_decide (s' = s) | _ => false end.

(** A union [A | B]. *)
Definition t_union (a b : type) : type :=
  λ v, a v || b v.

(** An array type [T[]]. *)
Definition t_array (t : type) : type :=
  λ v, match v with VArray xs => forallb t xs | _ => false end.

(** An index signature [{ [name: string]: T }]: an object all of whose
    property values are of type [T]. *)
Definition t_index (t : type) : type :=
  λ v, match v with VObject ps => all_values t ps | _ => false end.

(** A property declaration [name: T] or [name?: T]. *)
Record property := Property {
  p_name : string;
  p_optional : bool;
  p_type : type;
}.

Definition required (name : string) (t : type) : property :=
  Property name false t.

Definition optional (name : string) (t : type) : property :=
  Property name true t.

(** A required property must be there and of its type; an optional one may be
    missing, or hold [undefined], or be of its type. *)
Definition has_property (ps : gmap string value) (p : property) : bool :=
  match ps !! p_name p with
  | Some v => (p_optional p && is_undefined v) || p_type p v
  | None => p_optional p
  end.

(** An interface: an object that has each declared property.  Properties that
    are not declared are left alone, as structural typing does. *)
Definition t_interface (decl : list property) : type :=
  λ v, match v with VObject ps => forallb (has_property ps) decl | _ => false end.

(** The declaration of the property called [name] in an interface body. *)
Definition declared (decl : list property) (name : string) : option property :=
  find (λ p, bool_decide (p_name p = name)) decl.

End TS.

(** ** The JSON boundary

    [JSON.stringify] followed by [JSON.parse], with the JSON text taken by its
    abstract syntax: a numeral stands for the finite number it denotes and a
    string literal for its characters.  The shortest-digits printing of a
    finite number reads back as the same number, so the lexical layer is the
    identity on what is modelled here. *)

Module JSON.
Import JS.

Inductive json :=
| JNull
| JBool (b : bool)
| JNumber (n : number)
| JString (s : string)
| JArray (xs : list json)
| JObject (ms : gmap string json).

(** The numeral printed for a finite number: negative zero prints as [0]. *)
Definition numeral (n : number) : number :=
  if is_negative_zero n then S754_zero false else n.

(** [JSON.stringify]: [None] is the result [undefined] (nothing is written).
    A non-finite number is written [null]; in an array, [undefined] is written
    [null]; in an object, a property whose value is [undefined] is left
    out. *)
Fixpoint stringify (v : value) : option json :=
  match v with
  | VUndefined => None
  | VNull => Some JNull
  | VBool b => Some (JBool b)
  | VNumber n => Some (if is_finite n then JNumber (numeral n) else JNull)
  | VString s => Some (JString s)
  | VArray xs => Some (JArray (map (λ x, default JNull (stringify x)) xs))
  | VObject ps => Some (JObject (omap stringify ps))
  end.

(** [JSON.parse] on the abstract syntax. *)
Fixpoint parse (j : json) : value :=
  match j with
  | JNull => VNull
  | JBool b => VBool b
  | JNumber n => VNumber n
  | JString s => VString s
  | JArray xs => VArray (map parse xs)
  | JObject ms => VObject (parse <$> ms)
  end.

(** [JSON.parse(JSON.stringify(v))]. *)
Definition roundtrip (v : value) : option value :=
  parse <$> stringify v.

(** The member called [k] of a JSON object. *)
Definition member (j : json) (k : string) : option json :=
  match j with
  | JObject ms => ms !! k
  | _ => None
  end.

(** Values that JSON text can denote: every number is finite and is not
    negative zero, and [undefined] occurs nowhere, neither as an array element
    nor as the value of a property. *)
Fixpoint plain (v : value) : bool :=
  match v with
  | VUndefined => false
  | VNull | VBool _ | VString _ => true
  | VNumber n => is_finite n && negb (is_negative_zero n)
  | VArray xs => forallb plain xs
  | VObject ps => all_values plain ps
  end.

End JSON.

(** ** The declarations of [index.ts] *)

Import JS TS.

(** [export type TextType = 'PLAIN_TEXT' | 'HTML'] *)
Definition TextType : type :=
  t_union (t_literal "PLAIN_TEXT") (t_literal "HTML").

(** [export interface Comment] *)
Definition Comment_members : list property :=
  [ required "text" t_string;
    optional "type" TextType ].

Definition Comment : type := t_interface Comment_members.

(** [export interface ContextEntry] *)
Definition ContextEntry_members : list property :=
  [ optional "text" t_string;
    optional "type" TextType ].

Definition ContextEntry : type := t_interface ContextEntry_members.

(** [export interface Context] *)
Definition Context_members : list property :=
  [ optional "entries" (t_array ContextEntry) ].

Definition Context : type := t_interface Context_members.

(** [export type ScoreType = 'PROBABILITY' | string] *)
Definition ScoreType : type :=
  t_union (t_literal "PROBABILITY") t_string.

(** [export interface RequestedAttributeConfig] *)
Definition RequestedAttributeConfig_members : list property :=
  [ optional "scoreType" ScoreType;
    optional "scoreThreshold" t_number ].

Definition RequestedAttributeConfig : type :=
  t_interface RequestedAttributeConfig_members.

(** [export interface AnalyzeCommentRequest] *)
Definition AnalyzeCommentRequest_members : list property :=
  [ required "comment" Comment;
    optional "context" Context;
    required "requestedAttributes" (t_index RequestedAttributeConfig);
    optional "languages" (t_array t_string);
    optional "doNotStore" t_boolean;
    optional "clientToken" t_string;
    optional "sessionId" t_string;
    optional "communityId" t_string;
    optional "spanAnnotations" t_boolean ].

Definition AnalyzeCommentRequest : type :=
  t_interface AnalyzeCommentRequest_members.

(** [export interface Score] *)
Definition Score_members : list property :=
  [ required "value" t_number;
    optional "type" ScoreType ].

Definition Score : type := t_interface Score_members.

(** [export interface SpanScore] *)
Definition SpanScore_members : list property :=
  [ required "begin" t_number;
    required "end" t_number;
    required "score" Score ].

Definition SpanScore : type := t_interface SpanScore_members.

(** [export interface AttributeScore] *)
Definition AttributeScore_members : list property :=
  [ optional "summaryScore" Score;
    optional "spanScores" (t_array SpanScore) ].

Definition AttributeScore : type := t_interface AttributeScore_members.

(** [export interface AnalyzeCommentResponse] *)
Definition AnalyzeCommentResponse_members : list property :=
  [ optional "attributeScores" (t_index AttributeScore);
    optional "languages" (t_array t_string);
    optional "clientToken" t_string ].

Definition AnalyzeCommentResponse : type :=
  t_interface AnalyzeCommentResponse_members.

(** [export interface SuggestCommentScoreRequest] *)
Definition SuggestCommentScoreRequest_members : list property :=
  [ required "comment" Comment;
    optional "context" Context;
    required "attributeScores" (t_index AttributeScore);
    optional "languages" (t_array t_string);
    optional "communityId" t_string;
    optional "clientToken" t_string ].

Definition SuggestCommentScoreRequest : type :=
  t_interface SuggestCommentScoreRequest_members.

(** [export interface SuggestCommentScoreResponse] *)
Definition SuggestCommentScoreResponse_members : list property :=
  [ optional "clientToken" t_string ].

Definition SuggestCommentScoreResponse : type :=
  t_interface SuggestCommentScoreResponse_members.

(** [export type PerspectiveRequest], [export type PerspectiveResponse] *)
Definition PerspectiveRequest : type :=
  t_union AnalyzeCommentRequest SuggestCommentScoreRequest.

Definition PerspectiveResponse : type :=
  t_union AnalyzeCommentResponse SuggestCommentScoreResponse.

(** ** Sample payloads *)

(** [{comment: {text: "hello"}, requestedAttributes: {"TOXICITY": {}}}] *)
Definition hello_request : value :=
  obj [("comment", obj [("text", VString "hello")]);
       ("requestedAttributes", obj [("TOXICITY", obj [])])].

(** The same request asking for scores above a threshold that is [NaN]. *)
Definition nan_threshold_request : value :=
  obj [("comment", obj [("text", VString "hello")]);
       ("requestedAttributes",
        obj [("TOXICITY", obj [("scoreThreshold", VNumber S754_nan)])])].

(** What [nan_threshold_request] reads back as. *)
Definition null_threshold_request : value :=
  obj [("comment", obj [("text", VString "hello")]);
       ("requestedAttributes",
        obj [("TOXICITY", obj [("scoreThreshold", VNull)])])].

(** [{begin: 5, end: 0, score: {value: 1}}] *)
Definition reversed_span : value :=
  obj [("begin", VNumber (of_Z 5)); ("end", VNumber (of_Z 0));
       ("score", obj [("value", VNumber (of_Z 1))])].

(** [{summaryScore: {value: 0}}] *)
Definition zero_summary : value :=
  obj [("summaryScore", obj [("value", VNumber (of_Z 0))])].

(** [["en", "es"]] and [["es", "en"]] *)
Definition en_es : value := VArray [VString "en"; VString "es"].
Definition es_en : value := VArray [VString "es"; VString "en"].

(** A request and a response that carry [languages: ["en", "es"]]. *)
Definition bilingual_request : value :=
  obj [("comment", obj [("text", VString "hola, hello")]);
       ("requestedAttributes", obj [("TOXICITY", obj [])]);
       ("languages", en_es)].

Definition bilingual_response : value :=
  obj [("attributeScores", obj [("TOXICITY", zero_summary)]);
       ("languages", en_es)].

(** ** The declarations, as a table *)

(** The eleven interfaces of [index.ts], by name, in source order. *)
Definition interfaces : list (string * list property) :=
  [ ("Comment", Comment_members);
    ("ContextEntry", ContextEntry_members);
    ("Context", Context_members);
    ("RequestedAttributeConfig", RequestedAttributeConfig_members);
    ("AnalyzeCommentRequest", AnalyzeCommentRequest_members);
    ("Score", Score_members);
    ("SpanScore", SpanScore_members);
    ("AttributeScore", AttributeScore_members);
    ("AnalyzeCommentResponse", AnalyzeCommentResponse_members);
    ("SuggestCommentScoreRequest", SuggestCommentScoreRequest_members);
    ("SuggestCommentScoreResponse", SuggestCommentScoreResponse_members) ].

(** Every exported type of [index.ts], by name, in source order. *)
Definition declarations : list (string * type) :=
  [ ("TextType", TextType);
    ("Comment", Comment);
    ("ContextEntry", ContextEntry);
    ("Context", Context);
    ("ScoreType", ScoreType);
    ("RequestedAttributeConfig", RequestedAttributeConfig);
    ("AnalyzeCommentRequest", AnalyzeCommentRequest);
    ("Score", Score);
    ("SpanScore", SpanScore);
    ("AttributeScore", AttributeScore);
    ("AnalyzeCommentResponse", AnalyzeCommentResponse);
    ("SuggestCommentScoreRequest", SuggestCommentScoreRequest);
    ("SuggestCommentScoreResponse", SuggestCommentScoreResponse);
    ("PerspectiveRequest", PerspectiveRequest);
    ("PerspectiveResponse", PerspectiveResponse) ].

(** The exported types in whose declaration [number] does not occur, directly
    or through a type they mention. *)
Definition number_free : list (string * type) :=
  [ ("TextType", TextType);
    ("Comment", Comment);
    ("ContextEntry", ContextEntry);
    ("Context", Context);
    ("ScoreType", ScoreType);
    ("SuggestCommentScoreResponse", SuggestCommentScoreResponse) ].

(** The required properties of an interface body, by name. *)
Definition required_names (decl : list property) : list string :=
  p_name <$> filter (λ p, p_optional p = false) decl.

(** ** Shapes across the JSON boundary *)

(** Every number in the value is finite; [undefined] and negative zero are
    allowed. *)
Fixpoint finite (v : value) : bool :=
  match v with
  | VNumber n => is_finite n
  | VArray xs => forallb finite xs
  | VObject ps => all_values finite ps
  | _ => true
  end.

(** No condition at all. *)
Definition anything (v : value) : bool := true.

(** A condition on values that passes from an array to its elements and from
    an object to its property values. *)
Definition hereditary (ok : value → bool) : Prop :=
  (∀ xs x, ok (VArray xs) = true → x ∈ xs → ok x = true) ∧
  (∀ ps k x, ok (VObject ps) = true → ps !! k = Some x → ok x = true).

(** The type [t] is kept by JSON on the values that satisfy [ok]: such a
    value of type [t] is written, and what is read back is of type [t]. *)
Definition preserved (ok : value → bool) (t : type) : Prop :=
  ∀ v, t v = true → ok v = true →
       ∃ j, JSON.stringify v = Some j ∧ t (JSON.parse j) = true.

(** A request that is not plain: its [comment.type] is set to [undefined] and
    its threshold is negative zero. *)
Definition loose_request : value :=
  obj [("comment", obj [("text", VString "hello"); ("type", VUndefined)]);
       ("requestedAttributes",
        obj [("TOXICITY",
              obj [("scoreThreshold", VNumber (S754_zero true))])])].

(** A feedback request. *)
Definition hello_suggestion : value :=
  obj [("comment", obj [("text", VString "hello")]);
       ("attributeScores", obj [("TOXICITY", zero_summary)])].

(** ** Values: induction through arrays and objects *)

Section Values.

Lemma all_values_Forall (f : value → bool) (ps : gmap string value) :
  all_values f ps = true ↔ map_Forall (λ _ x, f x = true) ps.
Proof.
  unfold all_values.
  induction ps as [|k x ps Hk Hfold IH] using map_first_key_ind.
  - rewrite map_fold_empty. split; [intros _; apply map_Forall_empty | done].
  - rewrite map_fold_insert_first_key by done.
    rewrite andb_true_iff, map_Forall_insert by done. by rewrite IH.
Qed.

Lemma size_property (ps : gmap string value) k x :
  ps !! k = Some x → size x < size (VObject ps).
Proof.
  intros Hk. simpl.
  rewrite (map_fold_delete_L _ _ k x ps); [lia | intros; lia | done].
Qed.

Lemma size_element (xs : list value) x :
  x ∈ xs → size x < size (VArray xs).
Proof.
  simpl. induction 1 as [x xs|x y xs _ IH]; simpl; lia.
Qed.

(** Induction on values with the hypothesis available for every element of an
    array and every property value of an object. *)
Lemma value_nested_ind (P : value → Prop) :
  P VUndefined → P VNull → (∀ b, P (VBool b)) → (∀ n, P (VNumber n)) →
  (∀ s, P (VString s)) →
  (∀ xs, Forall P xs → P (VArray xs)) →
  (∀ ps, map_Forall (λ _ x, P x) ps → P (VObject ps)) →
  ∀ v, P v.
Proof.
  intros Hu Hn Hb Hnum Hs Ha Ho v.
  remember (size v) as n eqn:Hsz.
  revert v Hsz. induction n as [n IH] using lt_wf_ind. intros v ->.
  destruct v as [| |b|m|s|xs|ps]; auto.
  - apply Ha, Forall_forall. intros x Hx.
    apply (IH (size x)); [by apply size_element | done].
  - apply Ho. intros k x Hk.
    apply (IH (size x)); [by eapply size_property | done].
Qed.

End Values.

(** ** JSON: what survives [stringify] and [parse] *)

Section Boundary.
Import JSON.

(** [parse] never yields [undefined]. *)
Lemma parse_defined (j : json) : parse j ≠ VUndefined.
Proof. by destruct j. Qed.

(** On a plain value, [stringify] writes something and [parse] reads the same
    value back. *)
Lemma stringify_parse_plain (v : value) :
  plain v = true → ∃ j, stringify v = Some j ∧ parse j = v.
Proof.
  induction v as [| |b|n|s|xs IH|ps IH] using value_nested_ind;
    simpl; intros Hv; try done; try (eexists; split; [done|done]).
  - apply andb_true_iff in Hv as [Hfin Hz]. rewrite Hfin.
    eexists; split; [done|]. unfold numeral.
    apply negb_true_iff in Hz. by rewrite Hz.
  - eexists; split; [done|]. simpl. f_equal.
    rewrite map_map. rewrite forallb_forall in Hv.
    induction IH as [|x xs Hx _ IHxs]; [done|]. simpl.
    destruct Hx as (j & Hj & Hx); [apply Hv; by left|].
    rewrite Hj. simpl. rewrite Hx. f_equal.
    apply IHxs. intros y Hy. apply Hv. by right.
  - eexists; split; [done|]. simpl. f_equal.
    apply all_values_Forall in Hv.
    apply map_eq. intros k. rewrite lookup_fmap, lookup_omap.
    destruct (ps !! k) as [x|] eqn:Hk; [|done]. simpl.
    destruct (IH k x Hk (Hv k x Hk)) as (j & Hj & Hx).
    rewrite Hj. simpl. by rewrite Hx.
Qed.

Lemma roundtrip_plain (v : value) :
  plain v = true → roundtrip v = Some v.
Proof.
  intros Hv. unfold roundtrip.
  destruct (stringify_parse_plain v Hv) as (j & -> & <-). done.
Qed.

(** The converse: a value that reads back as itself is plain. *)
Lemma roundtrip_fixed_plain (v : value) :
  roundtrip v = Some v → plain v = true.
Proof.
  unfold roundtrip.
  induction v as [| |b|n|s|xs IH|ps IH] using value_nested_ind;
    simpl; try done.
  - destruct n as [[|]| | |]; by simpl.
  - intros [= Hxs]. rewrite map_map in Hxs.
    apply forallb_forall. intros x Hx. apply list_elem_of_In in Hx.
    induction IH as [|y ys Hy _ IHys]; [by apply elem_of_nil in Hx|].
    simpl in Hxs. injection Hxs as Hhd Htl.
    apply elem_of_cons in Hx as [->|Hx]; [|by apply IHys].
    apply Hy. destruct (stringify y) as [j|] eqn:Hj; simpl in *.
    + by rewrite Hhd.
    + by subst y.
  - intros [= Hps]. apply all_values_Forall. intros k x Hk.
    apply (IH k x Hk).
    apply (f_equal (.!! k)) in Hps.
    rewrite lookup_fmap, lookup_omap, Hk in Hps. simpl in Hps.
    destruct (stringify x) as [j|]; simpl in *; [|done].
    by injection Hps as ->.
Qed.

Lemma roundtrip_exact (v : value) :
  roundtrip v = Some v ↔ plain v = true.
Proof. split; [apply roundtrip_fixed_plain | apply roundtrip_plain]. Qed.

(** A property that reads as [undefined] is not written, and reads as
    [undefined] again after parsing. *)
Lemma absent_not_written (ps : gmap string value) (k : string) :
  get (VObject ps) k = VUndefined →
  ∃ j, stringify (VObject ps) = Some j ∧ member j k = None ∧
       has_own (parse j) k = false ∧ get (parse j) k = VUndefined.
Proof.
  simpl. intros Hk. eexists; split; [done|].
  assert (omap stringify ps !! k = None) as Hm.
  { rewrite lookup_omap. destruct (ps !! k) as [x|]; [|done].
    simpl in Hk. by subst x. }
  split; [done|]. simpl. by rewrite lookup_fmap, Hm.
Qed.

(** A plain value stored under a name of any object is read back under that
    name, whatever else the object holds. *)
Lemma roundtrip_property (ps : gmap string value) (k : string) (x : value) :
  plain x = true →
  ∃ v', roundtrip (VObject (<[k := x]> ps)) = Some v' ∧ get v' k = x.
Proof.
  intros Hx. destruct (stringify_parse_plain x Hx) as (j & Hj & Hp).
  exists (VObject (parse <$> omap stringify (<[k := x]> ps))).
  split; [done|]. unfold get.
  rewrite lookup_fmap, lookup_omap, lookup_insert_eq.
  change (Some x ≫= stringify) with (stringify x).
  by rewrite Hj.
Qed.

End Boundary.

(** ** Shapes: reading a declaration *)

Section Shapes.

Lemma t_interface_object (decl : list property) (v : value) :
  t_interface decl v = true →
  ∃ ps, v = VObject ps ∧ Forall (λ p, has_property ps p = true) decl.
Proof.
  destruct v as [| |b|n|s|xs|ps]; simpl; try done.
  intros Hdecl. exists ps. split; [done|].
  apply Forall_forall. intros p Hp.
  rewrite forallb_forall in Hdecl. apply Hdecl. by apply list_elem_of_In.
Qed.

Lemma has_required (ps : gmap string value) (k : string) (t : type) :
  has_property ps (required k t) = true ↔ ∃ x, ps !! k = Some x ∧ t x = true.
Proof.
  unfold has_property. simpl. destruct (ps !! k) as [x|].
  - split; [intros Hx; by exists x | by intros (? & [= <-] & ?)].
  - split; [done | by intros (? & ? & ?)].
Qed.

Lemma has_optional (ps : gmap string value) (k : string) (t : type) :
  has_property ps (optional k t) = true ↔
  get (VObject ps) k = VUndefined ∨ t (get (VObject ps) k) = true.
Proof.
  unfold has_property. simpl. destruct (ps !! k) as [x|]; simpl.
  - rewrite orb_true_iff. by destruct x; simpl; intuition.
  - by intuition.
Qed.

Lemma has_own_lookup (ps : gmap string value) (k : string) (x : value) :
  ps !! k = Some x → has_own (VObject ps) k = true ∧ get (VObject ps) k = x.
Proof. simpl. intros ->. split; [by apply bool_decide_eq_true|done]. Qed.

Lemma t_literal_inv (s : string) (v : value) :
  t_literal s v = true ↔ v = VString s.
Proof.
  destruct v; simpl; try (split; done).
  rewrite bool_decide_eq_true. split; [by intros -> | by intros [= ->]].
Qed.

(** Dropping a property keeps an object in an interface as long as every
    declaration of that name is optional. *)
Lemma t_interface_delete (decl : list property) (ps : gmap string value) k :
  Forall (λ p, p_name p = k → p_optional p = true) decl →
  t_interface decl (VObject ps) = true →
  t_interface decl (VObject (delete k ps)) = true.
Proof.
  simpl. intros Hopt Hps. rewrite forallb_forall in *. intros p Hp.
  specialize (Hps p Hp). rewrite Forall_forall in Hopt.
  specialize (Hopt p (proj2 (list_elem_of_In _ _) Hp)).
  unfold has_property in *.
  destruct (decide (p_name p = k)) as [Heq|Hne].
  - subst k. rewrite lookup_delete_eq. by apply Hopt.
  - by rewrite lookup_delete_ne.
Qed.

Lemma has_own_delete (ps : gmap string value) k :
  has_own (VObject (delete k ps)) k = false.
Proof. simpl. by rewrite lookup_delete_eq. Qed.

Lemma TextType_inv (v : value) :
  TextType v = true ↔ v = VString "PLAIN_TEXT" ∨ v = VString "HTML".
Proof.
  unfold TextType, t_union. by rewrite orb_true_iff, !t_literal_inv.
Qed.

Lemma Comment_inv (v : value) :
  Comment v = true →
  has_own v "text" = true ∧ (∃ s, get v "text" = VString s) ∧
  (get v "type" = VUndefined ∨ get v "type" = VString "PLAIN_TEXT" ∨
   get v "type" = VString "HTML").
Proof.
  intros Hv. apply t_interface_object in Hv as (ps & -> & Hdecl).
  unfold Comment_members in Hdecl.
  apply Forall_cons in Hdecl as [Htext Hdecl].
  apply Forall_cons in Hdecl as [Htype _].
  apply has_required in Htext as (x & Hx & Hs).
  apply has_optional in Htype.
  destruct (has_own_lookup _ _ _ Hx) as [-> ->].
  split; [done|]. split.
  - destruct x; try done. by eexists.
  - destruct Htype as [?|Ht]; [by left|]. right. by apply TextType_inv.
Qed.

End Shapes.

(** ** The properties of the shapes *)

(** C4. [ScoreType] is ['PROBABILITY' | string]: every string is a
    [ScoreType], the recommended ["PROBABILITY"] and any other alike, and the
    type has exactly the members of [string]. *)
Theorem ScoreType_open :
  (∀ s : string, ScoreType (VString s) = true) ∧
  (∀ v : value, ScoreType v = t_string v).
Proof.
  split.
  - intros s. unfold ScoreType, t_union. simpl. apply orb_true_r.
  - intros v. unfold ScoreType, t_union.
    destruct v; simpl; try done. apply orb_true_r.
Qed.

(** C7. In a [Comment], [text] is declared required and is a string in every
    value of the shape; [type] is declared optional and, when it is there,
    is ["PLAIN_TEXT"] or ["HTML"], which are exactly the two members of
    [TextType]. *)
Theorem Comment_text_and_type :
  (∀ v, Comment v = true →
     has_own v "text" = true ∧ (∃ s, get v "text" = VString s) ∧
     (get v "type" = VUndefined ∨ get v "type" = VString "PLAIN_TEXT" ∨
      get v "type" = VString "HTML")) ∧
  (∀ v, TextType v = true ↔ v = VString "PLAIN_TEXT" ∨ v = VString "HTML") ∧
  declared Comment_members "text" = Some (required "text" t_string) ∧
  declared Comment_members "type" = Some (optional "type" TextType).
Proof.
  split; [exact Comment_inv|]. split; [exact TextType_inv|]. by split.
Qed.

Lemma Comment_text_and_type_witness :
  let v := obj [("text", VString "hello"); ("type", VString "HTML")] in
  Comment v = true ∧
  has_own v "text" = true ∧ (∃ s, get v "text" = VString s) ∧
  (get v "type" = VUndefined ∨ get v "type" = VString "PLAIN_TEXT" ∨
   get v "type" = VString "HTML").
Proof.
  intros v. split; [reflexivity|].
  apply (proj1 Comment_text_and_type v). reflexivity.
Defined.

(** C10. Every property of [AnalyzeCommentResponse] and of
    [SuggestCommentScoreResponse] is declared optional, and the empty object
    is a value of both shapes. *)
Theorem responses_all_optional :
  map (λ p, (p_name p, p_optional p)) AnalyzeCommentResponse_members
  = [("attributeScores", true); ("languages", true); ("clientToken", true)] ∧
  map (λ p, (p_name p, p_optional p)) SuggestCommentScoreResponse_members
  = [("clientToken", true)] ∧
  AnalyzeCommentResponse (obj []) = true ∧
  SuggestCommentScoreResponse (obj []) = true ∧
  (∀ k, has_own (obj []) k = false).
Proof. by repeat split. Qed.

(** C1. In [AnalyzeCommentRequest], [comment] and [requestedAttributes] are
    declared required and the seven other properties optional.  Every value
    of the shape has a [comment] that is a [Comment] with a string [text],
    and a [requestedAttributes] that maps names to configurations; the value
    with only these two has the shape; and removing any of the seven optional
    properties from a value of the shape leaves a value of the shape. *)
Theorem AnalyzeCommentRequest_required_and_optional :
  let optionals :=
    ["context"; "languages"; "doNotStore"; "clientToken"; "sessionId";
     "communityId"; "spanAnnotations"] in
  map (λ p, (p_name p, p_optional p)) AnalyzeCommentRequest_members
  = [("comment", false); ("context", true); ("requestedAttributes", false);
     ("languages", true); ("doNotStore", true); ("clientToken", true);
     ("sessionId", true); ("communityId", true); ("spanAnnotations", true)] ∧
  (∀ v, AnalyzeCommentRequest v = true →
     has_own v "comment" = true ∧ Comment (get v "comment") = true ∧
     has_own (get v "comment") "text" = true ∧
     (∃ s, get (get v "comment") "text" = VString s) ∧
     has_own v "requestedAttributes" = true ∧
     t_index RequestedAttributeConfig (get v "requestedAttributes") = true) ∧
  (∀ text : string,
     let v := obj [("comment", obj [("text", VString text)]);
                   ("requestedAttributes", obj [])] in
     AnalyzeCommentRequest v = true ∧
     Forall (λ k, has_own v k = false) optionals) ∧
  (∀ ps k, k ∈ optionals →
     AnalyzeCommentRequest (VObject ps) = true →
     AnalyzeCommentRequest (VObject (delete k ps)) = true ∧
     has_own (VObject (delete k ps)) k = false).
Proof.
  intros optionals. split; [done|]. split; [|split].
  - intros v Hv. apply t_interface_object in Hv as (ps & -> & Hdecl).
    unfold AnalyzeCommentRequest_members in Hdecl.
    apply Forall_cons in Hdecl as [Hc Hdecl].
    apply Forall_cons in Hdecl as [_ Hdecl].
    apply Forall_cons in Hdecl as [Hr _].
    apply has_required in Hc as (c & Hc & Hcomment).
    apply has_required in Hr as (r & Hr & Hattrs).
    destruct (has_own_lookup _ _ _ Hc) as [-> ->].
    destruct (has_own_lookup _ _ _ Hr) as [-> ->].
    destruct (Comment_inv c Hcomment) as (? & ? & _).
    done.
  - intros text v. split; [done|]. by repeat constructor.
  - intros ps k Hk Hps. split; [|apply has_own_delete].
    apply t_interface_delete; [|done].
    unfold optionals in Hk. unfold AnalyzeCommentRequest_members.
    repeat (apply elem_of_cons in Hk as [->|Hk];
            [by repeat constructor|]).
    by apply elem_of_nil in Hk.
Qed.

Lemma AnalyzeCommentRequest_required_and_optional_witness :
  let v := obj [("comment", obj [("text", VString "hello")]);
                ("requestedAttributes", obj [("TOXICITY", obj [])]);
                ("languages", VArray [VString "en"])] in
  AnalyzeCommentRequest v = true ∧
  has_own v "comment" = true ∧ Comment (get v "comment") = true ∧
  has_own (get v "comment") "text" = true ∧
  (∃ s, get (get v "comment") "text" = VString s) ∧
  has_own v "requestedAttributes" = true ∧
  t_index RequestedAttributeConfig (get v "requestedAttributes") = true.
Proof.
  intros v. split; [reflexivity|].
  apply (proj1 (proj2 AnalyzeCommentRequest_required_and_optional) v).
  reflexivity.
Defined.

(** C6 (as amended).  A [SpanScore] has numbers for [begin] and [end] and a
    [Score] for [score], and the shape relates [begin] and [end] in no way:
    whatever the two numbers are, with a [Score] they make a [SpanScore]. *)
Theorem SpanScore_unordered :
  (∀ v, SpanScore v = true →
     ∃ b e, get v "begin" = VNumber b ∧ get v "end" = VNumber e ∧
            Score (get v "score") = true) ∧
  (∀ (b e : number) (s : value), Score s = true →
     SpanScore (obj [("begin", VNumber b); ("end", VNumber e); ("score", s)])
     = true).
Proof.
  split.
  - intros v Hv. apply t_interface_object in Hv as (ps & -> & Hdecl).
    unfold SpanScore_members in Hdecl.
    apply Forall_cons in Hdecl as [Hb Hdecl].
    apply Forall_cons in Hdecl as [He Hdecl].
    apply Forall_cons in Hdecl as [Hs _].
    apply has_required in Hb as (b & Hb & Hbn).
    apply has_required in He as (e & He & Hen).
    apply has_required in Hs as (s & Hs & Hscore).
    destruct b as [| | |b| | |]; try done.
    destruct e as [| | |e| | |]; try done.
    exists b, e. simpl. by rewrite Hb, He, Hs.
  - intros b e s Hs. unfold SpanScore, SpanScore_members, t_interface, obj.
    simpl. unfold has_property. simpl. simplify_map_eq. by rewrite Hs.
Qed.

Lemma SpanScore_unordered_witness :
  Score (obj [("value", VNumber (of_Z 1))]) = true ∧
  SpanScore (obj [("begin", VNumber (of_Z 5)); ("end", VNumber (of_Z 0));
                  ("score", obj [("value", VNumber (of_Z 1))])]) = true.
Proof.
  split; [reflexivity|].
  apply (proj2 SpanScore_unordered). reflexivity.
Defined.

(** C6 as stated fails: [{begin: 5, end: 0, score: {value: 1}}] is a
    [SpanScore] and its [begin] is not less than or equal to its [end]. *)
Lemma SpanScore_begin_after_end :
  SpanScore reversed_span = true ∧
  get reversed_span "begin" = VNumber (of_Z 5) ∧
  get reversed_span "end" = VNumber (of_Z 0) ∧
  le (of_Z 5) (of_Z 0) = false.
Proof. by repeat split. Qed.

(** C5. [attributeScores] is declared required in [SuggestCommentScoreRequest]
    and optional in [AnalyzeCommentResponse], with one and the same type, a
    mapping from names to [AttributeScore]: what a request carries there can
    stand in a response, and what a response carries there, with a comment,
    makes a request. *)
Theorem attributeScores_same_shape :
  declared SuggestCommentScoreRequest_members "attributeScores"
  = Some (required "attributeScores" (t_index AttributeScore)) ∧
  declared AnalyzeCommentResponse_members "attributeScores"
  = Some (optional "attributeScores" (t_index AttributeScore)) ∧
  (∀ v, SuggestCommentScoreRequest v = true →
     has_own v "attributeScores" = true ∧
     t_index AttributeScore (get v "attributeScores") = true ∧
     AnalyzeCommentResponse (obj [("attributeScores", get v "attributeScores")])
     = true) ∧
  (∀ r c, AnalyzeCommentResponse r = true →
     get r "attributeScores" ≠ VUndefined → Comment c = true →
     SuggestCommentScoreRequest
       (obj [("comment", c); ("attributeScores", get r "attributeScores")])
     = true).
Proof.
  split; [done|]. split; [done|]. split.
  - intros v Hv. apply t_interface_object in Hv as (ps & -> & Hdecl).
    unfold SuggestCommentScoreRequest_members in Hdecl.
    apply Forall_cons in Hdecl as [_ Hdecl].
    apply Forall_cons in Hdecl as [_ Hdecl].
    apply Forall_cons in Hdecl as [Ha _].
    apply has_required in Ha as (a & Ha & Hscores).
    destruct (has_own_lookup _ _ _ Ha) as [-> ->].
    split; [done|]. split; [done|].
    unfold AnalyzeCommentResponse, AnalyzeCommentResponse_members,
      t_interface, obj. simpl. unfold has_property. simpl.
    simplify_map_eq. rewrite Hscores. by rewrite orb_true_r.
  - intros r c Hr Hpresent Hc.
    apply t_interface_object in Hr as (ps & -> & Hdecl).
    unfold AnalyzeCommentResponse_members in Hdecl.
    apply Forall_cons in Hdecl as [Ha _].
    apply has_optional in Ha as [Ha|Ha]; [done|].
    unfold SuggestCommentScoreRequest, SuggestCommentScoreRequest_members,
      t_interface, obj. simpl. unfold has_property. simpl.
    simplify_map_eq. simpl in Ha. by rewrite Hc, Ha.
Qed.

Lemma attributeScores_same_shape_witness :
  let v := obj [("comment", obj [("text", VString "hello")]);
                ("attributeScores", obj [("TOXICITY", zero_summary)])] in
  SuggestCommentScoreRequest v = true ∧
  has_own v "attributeScores" = true ∧
  t_index AttributeScore (get v "attributeScores") = true ∧
  AnalyzeCommentResponse (obj [("attributeScores", get v "attributeScores")])
  = true.
Proof.
  intros v. split; [reflexivity|].
  apply (proj1 (proj2 (proj2 attributeScores_same_shape)) v). reflexivity.
Defined.

(** C8. The empty object is a [RequestedAttributeConfig], so is a
    configuration with both [scoreType] and [scoreThreshold], the two differ,
    and a request may hold the one under a name and the other under another
    name of its [requestedAttributes]. *)
Theorem empty_config_alongside_full (k1 k2 text st : string) (th : number) :
  k1 ≠ k2 →
  let empty := obj [] in
  let full := obj [("scoreType", VString st);
                   ("scoreThreshold", VNumber th)] in
  let r := obj [("comment", obj [("text", VString text)]);
                ("requestedAttributes", obj [(k1, empty); (k2, full)])] in
  RequestedAttributeConfig empty = true ∧
  RequestedAttributeConfig full = true ∧
  empty ≠ full ∧
  AnalyzeCommentRequest r = true ∧
  get (get r "requestedAttributes") k1 = empty ∧
  get (get r "requestedAttributes") k2 = full.
Proof.
  intros Hne empty full r.
  assert (RequestedAttributeConfig full = true) as Hfull.
  { unfold full, RequestedAttributeConfig, RequestedAttributeConfig_members,
      t_interface, obj. simpl. unfold has_property. simpl.
    simplify_map_eq. unfold ScoreType, t_union. simpl.
    by rewrite !orb_true_r. }
  split; [done|]. split; [done|]. split.
  { unfold empty, full, obj. simpl. intros Heq.
    apply (f_equal (λ v, get v "scoreType")) in Heq. simpl in Heq.
    by simplify_map_eq. }
  split.
  - unfold r, AnalyzeCommentRequest, AnalyzeCommentRequest_members,
      t_interface, obj. simpl. unfold has_property. simpl.
    simplify_map_eq. rewrite !andb_true_r. simpl.
    apply all_values_Forall.
    apply map_Forall_insert_2; [done|].
    apply map_Forall_insert_2; [done|]. apply map_Forall_empty.
  - unfold r, obj. simpl. by simplify_map_eq.
Qed.

Lemma empty_config_alongside_full_witness :
  let r := obj [("comment", obj [("text", VString "hello")]);
                ("requestedAttributes",
                 obj [("TOXICITY", obj []);
                      ("INSULT", obj [("scoreType", VString "PROBABILITY");
                                      ("scoreThreshold",
                                       VNumber (of_Z 1))])])] in
  AnalyzeCommentRequest r = true ∧
  get (get r "requestedAttributes") "TOXICITY" = obj [].
Proof.
  intros r.
  destruct (empty_config_alongside_full
              "TOXICITY" "INSULT" "hello" "PROBABILITY" (of_Z 1))
    as (_ & _ & _ & Hr & Hempty & _); [discriminate|].
  split; [exact Hr | exact Hempty].
Defined.

Import JSON.

(** C3. [summaryScore] is declared optional in [AttributeScore]: the object
    without it is a value of the shape, and is another value than the one
    whose [summaryScore] is the score 0.  A property that is left out of an
    object (or holds [undefined]) is not written by [stringify] and is still
    left out after [parse]: it reads [undefined], not [null] and not a
    score. *)
Theorem AttributeScore_absent_summaryScore :
  declared AttributeScore_members "summaryScore"
  = Some (optional "summaryScore" Score) ∧
  AttributeScore (obj []) = true ∧
  AttributeScore zero_summary = true ∧
  obj [] ≠ zero_summary ∧
  get (obj []) "summaryScore" = VUndefined ∧
  get zero_summary "summaryScore" = obj [("value", VNumber (of_Z 0))] ∧
  roundtrip (obj []) = Some (obj []) ∧
  roundtrip zero_summary = Some zero_summary ∧
  (∀ ps k, get (VObject ps) k = VUndefined →
     ∃ j, stringify (VObject ps) = Some j ∧ member j k = None ∧
          has_own (parse j) k = false ∧ get (parse j) k = VUndefined) ∧
  (∀ v, AttributeScore v = true → get v "summaryScore" = VUndefined →
     ∃ v', roundtrip v = Some v' ∧ get v' "summaryScore" = VUndefined ∧
           get v' "summaryScore" ≠ VNull ∧
           get v' "summaryScore" ≠ get zero_summary "summaryScore").
Proof.
  repeat (split; [done|]). split; [exact absent_not_written|].
  intros v Hv Habsent. apply t_interface_object in Hv as (ps & -> & _).
  destruct (absent_not_written ps _ Habsent) as (j & Hj & _ & _ & Hget).
  exists (parse j). unfold roundtrip. rewrite Hj, Hget. done.
Qed.

Lemma AttributeScore_absent_summaryScore_witness :
  let v := obj [("spanScores", VArray [reversed_span])] in
  AttributeScore v = true ∧ get v "summaryScore" = VUndefined ∧
  ∃ v', roundtrip v = Some v' ∧ get v' "summaryScore" = VUndefined ∧
        get v' "summaryScore" ≠ VNull ∧
        get v' "summaryScore" ≠ get zero_summary "summaryScore".
Proof.
  intros v. split; [reflexivity|]. split; [reflexivity|].
  apply (proj2 (proj2 (proj2 (proj2 (proj2 (proj2 (proj2 (proj2 (proj2
           AttributeScore_absent_summaryScore)))))))) v); reflexivity.
Defined.

(** C9. [languages] is declared, in the request and in the response, as an
    array of strings, that is a sequence: ["en", "es"] and ["es", "en"] are
    two values.  Any array of strings reads back from JSON as the same array,
    element by element in the same order, alone or as the [languages] of an
    object. *)
Theorem languages_ordered_roundtrip :
  declared AnalyzeCommentRequest_members "languages"
  = Some (optional "languages" (t_array t_string)) ∧
  declared AnalyzeCommentResponse_members "languages"
  = Some (optional "languages" (t_array t_string)) ∧
  (∀ ls : list string,
     t_array t_string (VArray (VString <$> ls)) = true ∧
     roundtrip (VArray (VString <$> ls)) = Some (VArray (VString <$> ls))) ∧
  en_es ≠ es_en ∧
  roundtrip en_es = Some en_es ∧
  AnalyzeCommentRequest bilingual_request = true ∧
  get bilingual_request "languages" = en_es ∧
  roundtrip bilingual_request = Some bilingual_request ∧
  AnalyzeCommentResponse bilingual_response = true ∧
  get bilingual_response "languages" = en_es ∧
  roundtrip bilingual_response = Some bilingual_response ∧
  (∀ (ps : gmap string value) (ls : list string),
     ∃ v', roundtrip (VObject (<["languages" := VArray (VString <$> ls)]> ps))
           = Some v' ∧
           get v' "languages" = VArray (VString <$> ls)).
Proof.
  assert (∀ ls : list string,
            plain (VArray (VString <$> ls)) = true) as Hplain.
  { intros ls. simpl. by induction ls. }
  repeat (split; [done|]). split; [|repeat (split; [done|])].
  - intros ls. split; [|by apply roundtrip_plain].
    simpl. by induction ls.
  - intros ps ls. by apply roundtrip_property.
Qed.

(** C2 (as amended).  A value of the [AnalyzeCommentRequest] shape reads back
    from JSON as itself exactly when it is plain: every number in it is
    finite and not negative zero, and nothing in it is [undefined] (an
    optional property is left out, not set to [undefined]).  What is read
    back is then again of the shape. *)
Theorem AnalyzeCommentRequest_roundtrip (v : value) :
  AnalyzeCommentRequest v = true →
  (roundtrip v = Some v ↔ plain v = true) ∧
  (plain v = true →
   ∃ j, stringify v = Some j ∧ parse j = v ∧
        AnalyzeCommentRequest (parse j) = true).
Proof.
  intros Hv. split; [apply roundtrip_exact|].
  intros Hplain. destruct (stringify_parse_plain v Hplain) as (j & Hj & Hp).
  exists j. by rewrite Hp.
Qed.

Lemma AnalyzeCommentRequest_roundtrip_witness :
  AnalyzeCommentRequest hello_request = true ∧
  plain hello_request = true ∧
  roundtrip hello_request = Some hello_request.
Proof.
  split; [reflexivity|]. split; [reflexivity|].
  apply (proj1 (AnalyzeCommentRequest_roundtrip hello_request eq_refl)).
  reflexivity.
Defined.

(** C2 as stated fails: a request whose [scoreThreshold] is [NaN] has every
    required property and is of the shape, its threshold is written [null],
    and what is read back is another value, which is not even of the
    shape. *)
Lemma AnalyzeCommentRequest_roundtrip_nan :
  AnalyzeCommentRequest nan_threshold_request = true ∧
  roundtrip nan_threshold_request = Some null_threshold_request ∧
  null_threshold_request ≠ nan_threshold_request ∧
  roundtrip nan_threshold_request ≠ Some nan_threshold_request ∧
  AnalyzeCommentRequest null_threshold_request = false.
Proof. by repeat split. Qed.

(** ** The scenarios of the specification *)

(** Scenario 1: the request is written with [comment.type] left out and
    [requestedAttributes.TOXICITY] as the empty object. *)
Example scenario_hello :
  ∃ j c a, stringify hello_request = Some j ∧
           member j "comment" = Some c ∧ member c "type" = None ∧
           member c "text" = Some (JString "hello") ∧
           member j "requestedAttributes" = Some a ∧
           member a "TOXICITY" = Some (JObject ∅).
Proof. by repeat eexists. Qed.

(** Scenario 3: a span score with all four leaves reads back unchanged. *)
Example scenario_span :
  let span := obj [("begin", VNumber (of_Z 0)); ("end", VNumber (of_Z 5));
                   ("score", obj [("value", VNumber (of_Z 1));
                                  ("type", VString "PROBABILITY")])] in
  SpanScore span = true ∧ roundtrip span = Some span.
Proof. by split. Qed.

(** Scenario 2: a response with the summary score 0.83 (the binary64 number
    nearest to 83/100) and no [spanScores] reads back with the same number
    and still without [spanScores]. *)
Example scenario_summary :
  let score := VNumber (SFdiv prec emax (of_Z 83) (of_Z 100)) in
  let response :=
    obj [("attributeScores",
          obj [("TOXICITY", obj [("summaryScore", obj [("value", score)])])])]
  in
  AnalyzeCommentResponse response = true ∧
  roundtrip response = Some response ∧
  get (get (get (get response "attributeScores") "TOXICITY") "summaryScore")
      "value" = score ∧
  has_own (get (get response "attributeScores") "TOXICITY") "spanScores"
  = false.
Proof. by repeat split. Qed.

(** ** Shapes across the JSON boundary: one lemma per type former *)

Section Preservation.
Context (ok : value → bool) (Hok : hereditary ok).

Lemma preserved_string : preserved ok t_string.
Proof. intros [] Hv _; try done. by eexists. Qed.

Lemma preserved_boolean : preserved ok t_boolean.
Proof. intros [] Hv _; try done. by eexists. Qed.

Lemma preserved_literal (s : string) : preserved ok (t_literal s).
Proof. intros [] Hv _; try done. by eexists. Qed.

(** [number] is kept where numbers are finite; elsewhere it is not, since a
    non-finite number is written [null]. *)
Lemma preserved_number :
  (∀ n, ok (VNumber n) = true → is_finite n = true) →
  preserved ok t_number.
Proof.
  intros Hfin [] Hv Hn; try done. simpl. rewrite (Hfin _ Hn). by eexists.
Qed.

Lemma preserved_union (a b : type) :
  preserved ok a → preserved ok b → preserved ok (t_union a b).
Proof.
  intros Ha Hb v Hv Hk. unfold t_union in *.
  apply orb_true_iff in Hv as [Hv|Hv].
  - destruct (Ha v Hv Hk) as (j & Hj & Ht). exists j. by rewrite Ht.
  - destruct (Hb v Hv Hk) as (j & Hj & Ht). exists j.
    by rewrite Ht, orb_true_r.
Qed.

Lemma preserved_array (t : type) :
  preserved ok t → preserved ok (t_array t).
Proof.
  intros Ht [] Hv Hk; try done. simpl in Hv.
  exists (JArray (map (λ x, default JNull (stringify x)) xs)).
  split; [done|]. cbn [parse t_array].
  rewrite map_map. apply forallb_forall. intros y Hy.
  apply in_map_iff in Hy as (x & <- & Hx).
  rewrite forallb_forall in Hv. specialize (Hv x Hx).
  apply list_elem_of_In in Hx.
  destruct (Ht x Hv (proj1 Hok _ _ Hk Hx)) as (j & Hj & Hp).
  by rewrite Hj.
Qed.

Lemma preserved_index (t : type) :
  preserved ok t → preserved ok (t_index t).
Proof.
  intros Ht [] Hv Hk; try done. simpl in Hv.
  exists (JObject (omap stringify ps)).
  split; [done|]. cbn [parse t_index].
  apply all_values_Forall in Hv. apply all_values_Forall.
  intros k y Hy. rewrite lookup_fmap, lookup_omap in Hy.
  destruct (ps !! k) as [x|] eqn:Hx; [|done].
  destruct (Ht x (Hv k x Hx) (proj2 Hok _ _ _ Hk Hx)) as (j & Hj & Hp).
  change (Some x ≫= JSON.stringify) with (JSON.stringify x) in Hy.
  rewrite Hj in Hy. simpl in Hy. by injection Hy as <-.
Qed.

(** A declared property is still had after the passage: a required one is
    written and read back, an optional one is read back or is gone. *)
Lemma preserved_property (ps : gmap string value) (p : property) :
  preserved ok (p_type p) → ok (VObject ps) = true →
  has_property ps p = true →
  has_property (JSON.parse <$> omap JSON.stringify ps) p = true.
Proof.
  intros Ht Hk. unfold has_property.
  rewrite lookup_fmap, lookup_omap.
  destruct (ps !! p_name p) as [x|] eqn:Hx; [|done].
  change (Some x ≫= JSON.stringify) with (JSON.stringify x).
  intros Hp. apply orb_true_iff in Hp as [Hp|Hp].
  - apply andb_true_iff in Hp as [Hopt Hu]. destruct x; try done.
  - destruct (Ht x Hp (proj2 Hok _ _ _ Hk Hx)) as (j & Hj & Hpj).
    rewrite Hj. simpl. by rewrite Hpj, orb_true_r.
Qed.

Lemma preserved_interface (decl : list property) :
  Forall (λ p, preserved ok (p_type p)) decl →
  preserved ok (t_interface decl).
Proof.
  intros Hdecl [] Hv Hk; try done. simpl in Hv.
  exists (JObject (omap stringify ps)).
  split; [done|]. cbn [parse t_interface].
  apply forallb_forall. intros p Hp.
  rewrite forallb_forall in Hv. rewrite Forall_forall in Hdecl.
  apply preserved_property; [|done|by apply Hv].
  apply Hdecl. by apply list_elem_of_In.
Qed.

End Preservation.

(** ** Shapes across the JSON boundary: the declarations *)

Lemma finite_hereditary : hereditary finite.
Proof.
  split.
  - intros xs x Hxs Hx. simpl in Hxs. rewrite forallb_forall in Hxs.
    apply Hxs. by apply list_elem_of_In.
  - intros ps k x Hps Hx. simpl in Hps.
    apply all_values_Forall in Hps. by apply (Hps k x).
Qed.

Lemma anything_hereditary : hereditary anything.
Proof. by split. Qed.

Lemma plain_finite (v : value) : plain v = true → finite v = true.
Proof.
  induction v as [| |b|n|s|xs IH|ps IH] using value_nested_ind;
    simpl; try done.
  - by intros [? _]%andb_true_iff.
  - rewrite !forallb_forall. intros Hxs x Hx.
    rewrite Forall_forall in IH.
    apply IH; [by apply list_elem_of_In | by apply Hxs].
  - rewrite !all_values_Forall. intros Hps k x Hx.
    by apply (IH k x Hx), (Hps k x).
Qed.

Section Declarations.
Context (ok : value → bool) (Hok : hereditary ok).

Local Ltac members :=
  apply preserved_interface; [done|]; repeat apply Forall_cons_2;
  [..|apply Forall_nil_2]; cbn [p_type required optional].

Lemma preserved_TextType : preserved ok TextType.
Proof. apply preserved_union; apply preserved_literal. Qed.

Lemma preserved_ScoreType : preserved ok ScoreType.
Proof.
  apply preserved_union; [apply preserved_literal | apply preserved_string].
Qed.

Lemma preserved_Comment : preserved ok Comment.
Proof. members; [apply preserved_string | apply preserved_TextType]. Qed.

Lemma preserved_ContextEntry : preserved ok ContextEntry.
Proof. members; [apply preserved_string | apply preserved_TextType]. Qed.

Lemma preserved_Context : preserved ok Context.
Proof. members. by apply preserved_array, preserved_ContextEntry. Qed.

Lemma preserved_SuggestCommentScoreResponse :
  preserved ok SuggestCommentScoreResponse.
Proof. members. apply preserved_string. Qed.

(** From here on [number] occurs, and numbers must be finite. *)
Context (Hfin : ∀ n, ok (VNumber n) = true → is_finite n = true).

Lemma preserved_RequestedAttributeConfig :
  preserved ok RequestedAttributeConfig.
Proof.
  members; [apply preserved_ScoreType | by apply preserved_number].
Qed.

Lemma preserved_Score : preserved ok Score.
Proof.
  members; [by apply preserved_number | apply preserved_ScoreType].
Qed.

Lemma preserved_SpanScore : preserved ok SpanScore.
Proof.
  members; [by apply preserved_number.. | apply preserved_Score].
Qed.

Lemma preserved_AttributeScore : preserved ok AttributeScore.
Proof.
  members; [apply preserved_Score |].
  by apply preserved_array, preserved_SpanScore.
Qed.

Lemma preserved_AnalyzeCommentRequest : preserved ok AnalyzeCommentRequest.
Proof.
  members;
    [ apply preserved_Comment | apply preserved_Context
    | by apply preserved_index, preserved_RequestedAttributeConfig
    | by apply preserved_array, preserved_string
    | apply preserved_boolean | apply preserved_string
    | apply preserved_string | apply preserved_string
    | apply preserved_boolean ].
Qed.

Lemma preserved_AnalyzeCommentResponse : preserved ok AnalyzeCommentResponse.
Proof.
  members;
    [ by apply preserved_index, preserved_AttributeScore
    | by apply preserved_array, preserved_string
    | apply preserved_string ].
Qed.

Lemma preserved_SuggestCommentScoreRequest :
  preserved ok SuggestCommentScoreRequest.
Proof.
  members;
    [ apply preserved_Comment | apply preserved_Context
    | by apply preserved_index, preserved_AttributeScore
    | by apply preserved_array, preserved_string
    | apply preserved_string | apply preserved_string ].
Qed.

End Declarations.

Lemma preserved_roundtrip (ok : value → bool) (t : type) (v : value) :
  preserved ok t → t v = true → ok v = true →
  ∃ v', roundtrip v = Some v' ∧ t v' = true.
Proof.
  intros Ht Hv Hk. destruct (Ht v Hv Hk) as (j & Hj & Hp).
  exists (parse j). unfold roundtrip. by rewrite Hj.
Qed.

(** What a property reads after the passage, when it read a string or
    [undefined] before. *)
Lemma roundtrip_get_string (ps : gmap string value) (k s : string) :
  get (VObject ps) k = VString s →
  get (VObject (parse <$> omap stringify ps)) k = VString s.
Proof.
  unfold get. rewrite lookup_fmap, lookup_omap.
  destruct (ps !! k) as [x|]; [|done]. simpl. by intros ->.
Qed.

Lemma roundtrip_get_undefined (ps : gmap string value) (k : string) :
  get (VObject ps) k = VUndefined →
  get (VObject (parse <$> omap stringify ps)) k = VUndefined.
Proof.
  unfold get. rewrite lookup_fmap, lookup_omap.
  destruct (ps !! k) as [x|]; [|done]. simpl. by intros ->.
Qed.





(** ** Shapes against one another *)

Section Subshapes.

(** An interface whose declarations all occur in another one contains every
    value of that other one. *)
Lemma t_interface_sub (decl1 decl2 : list property) (v : value) :
  (∀ p, p ∈ decl2 → p ∈ decl1) →
  t_interface decl1 v = true → t_interface decl2 v = true.
Proof.
  intros Hsub. destruct v; simpl; try done.
  rewrite !forallb_forall. intros H1 p Hp.
  apply H1. apply list_elem_of_In, Hsub. by apply list_elem_of_In.
Qed.

Lemma has_property_insert_ne (ps : gmap string value) p k x :
  p_name p ≠ k → has_property (<[k := x]> ps) p = has_property ps p.
Proof. intros Hne. unfold has_property. by rewrite lookup_insert_ne. Qed.

(** Setting a property that an interface does not declare changes nothing. *)
Lemma t_interface_insert_undeclared (decl : list property) ps k x :
  Forall (λ p, p_name p ≠ k) decl →
  t_interface decl (VObject (<[k := x]> ps)) = t_interface decl (VObject ps).
Proof.
  simpl. induction 1 as [|p decl Hp _ IH]; [done|]. simpl.
  by rewrite has_property_insert_ne, IH.
Qed.

(** An object without a property that is declared required is rejected. *)
Lemma t_interface_missing (decl : list property) ps p :
  p ∈ decl → p_optional p = false → ps !! p_name p = None →
  t_interface decl (VObject ps) = false.
Proof.
  intros Hp Hreq Hnone. simpl. apply not_true_is_false. intros Hall.
  rewrite forallb_forall in Hall.
  specialize (Hall p (proj1 (list_elem_of_In _ _) Hp)).
  unfold has_property in Hall. rewrite Hnone in Hall. congruence.
Qed.

(** An object holding, under a declared name, a value that is neither of the
    declared type nor [undefined] is rejected. *)
Lemma t_interface_mistyped (decl : list property) ps p x :
  p ∈ decl → ps !! p_name p = Some x →
  is_undefined x = false → p_type p x = false →
  t_interface decl (VObject ps) = false.
Proof.
  intros Hp Hx Hu Ht. simpl. apply not_true_is_false. intros Hall.
  rewrite forallb_forall in Hall.
  specialize (Hall p (proj1 (list_elem_of_In _ _) Hp)).
  unfold has_property in Hall. rewrite Hx, Hu, Ht, andb_false_r in Hall.
  done.
Qed.

(** What the two request shapes share. *)
Lemma PerspectiveRequest_common (v : value) :
  PerspectiveRequest v = true →
  t_interface [ required "comment" Comment;
                optional "context" Context;
                optional "languages" (t_array t_string);
                optional "communityId" t_string;
                optional "clientToken" t_string ] v = true.
Proof.
  unfold PerspectiveRequest, t_union.
  intros [Hv|Hv]%orb_true_iff; revert Hv; apply t_interface_sub;
    intros p Hp;
    repeat (apply elem_of_cons in Hp as [->|Hp]; [by repeat constructor|]);
    by apply elem_of_nil in Hp.
Qed.

End Subshapes.

(** X3. A [Comment] is a [ContextEntry]: the two declare the same properties
    and differ only in that [text] is required of a comment, so a comment is
    exactly a context entry whose [text] is a string, and any list of
    comments can be the [entries] of a [Context]. *)
Theorem Comment_is_ContextEntry :
  (∀ v, Comment v = ContextEntry v && t_string (get v "text")) ∧
  (∀ v, Comment v = true → ContextEntry v = true) ∧
  (∀ cs, forallb Comment cs = true →
     Context (obj [("entries", VArray cs)]) = true).
Proof.
  assert (∀ v, Comment v = ContextEntry v && t_string (get v "text")) as Heq.
  { intros [| | | | | |ps]; try done.
    unfold Comment, ContextEntry, t_interface, get. simpl.
    unfold has_property. simpl.
    destruct (ps !! "text") as [[]|]; simpl;
      by rewrite ?andb_true_r, ?andb_false_r. }
  split; [done|].
  assert (∀ v, Comment v = true → ContextEntry v = true) as Hsub.
  { intros v. rewrite Heq. by intros [? _]%andb_true_iff. }
  split; [done|].
  intros cs Hcs. unfold Context, Context_members, t_interface, obj. simpl.
  unfold has_property. simpl. simplify_map_eq. simpl.
  rewrite andb_true_r. apply forallb_forall. intros c Hc.
  rewrite forallb_forall in Hcs. by apply Hsub, Hcs.
Qed.

Lemma Comment_is_ContextEntry_witness :
  let c := obj [("text", VString "hello"); ("type", VString "HTML")] in
  Comment c = true ∧ ContextEntry c = true ∧
  Context (obj [("entries", VArray [c; c])]) = true.
Proof.
  intros c. split; [reflexivity|]. split.
  - apply (proj1 (proj2 Comment_is_ContextEntry) c). reflexivity.
  - apply (proj2 (proj2 Comment_is_ContextEntry) [c; c]). reflexivity.
Defined.

(** X4. [null] does not stand for a missing property.  No exported type
    contains [null] (or [undefined]), and an object that holds [null] under
    a name that one of the eleven interfaces declares, required or optional,
    is not a value of that interface. *)
Theorem null_is_not_absent :
  (∀ name t, (name, t) ∈ declarations →
     t VNull = false ∧ t VUndefined = false) ∧
  (∀ name decl p ps, (name, decl) ∈ interfaces → p ∈ decl →
     ps !! p_name p = Some VNull →
     t_interface decl (VObject ps) = false).
Proof.
  split.
  - intros name t Hin. unfold declarations in Hin.
    repeat (apply elem_of_cons in Hin as [[= -> ->]|Hin]; [done|]).
    by apply elem_of_nil in Hin.
  - intros name decl p ps Hin Hp Hnull.
    apply (t_interface_mistyped decl ps p VNull); [done..|].
    unfold interfaces in Hin.
    repeat (apply elem_of_cons in Hin as [[= -> ->]|Hin];
            [repeat (apply elem_of_cons in Hp as [->|Hp]; [done|]);
             by apply elem_of_nil in Hp|]).
    by apply elem_of_nil in Hin.
Qed.

Lemma null_is_not_absent_witness :
  Comment (obj [("text", VString "hello"); ("type", VNull)]) = false.
Proof.
  apply (proj2 null_is_not_absent "Comment" Comment_members
           (optional "type" TextType)
           (list_to_map [("text", VString "hello"); ("type", VNull)]));
    [by repeat constructor | by repeat constructor | reflexivity].
Defined.





(** X7. The two request shapes overlap and neither contains the other.
    Every [PerspectiveRequest] has a [Comment] under [comment] and, where
    present, a [Context], an array of strings and strings under [context],
    [languages], [communityId] and [clientToken].  An analyze request to
    which [attributeScores] is added is still an analyze request and is a
    suggest request as well. *)
Theorem PerspectiveRequest_overlap :
  (∀ v, PerspectiveRequest v = true →
     has_own v "comment" = true ∧ Comment (get v "comment") = true ∧
     (get v "context" = VUndefined ∨ Context (get v "context") = true) ∧
     (get v "languages" = VUndefined ∨
      t_array t_string (get v "languages") = true) ∧
     (get v "communityId" = VUndefined ∨
      t_string (get v "communityId") = true) ∧
     (get v "clientToken" = VUndefined ∨
      t_string (get v "clientToken") = true)) ∧
  (∀ ps a, AnalyzeCommentRequest (VObject ps) = true →
     t_index AttributeScore a = true →
     AnalyzeCommentRequest (VObject (<["attributeScores" := a]> ps)) = true ∧
     SuggestCommentScoreRequest (VObject (<["attributeScores" := a]> ps))
     = true) ∧
  (∃ v, AnalyzeCommentRequest v = true ∧
        SuggestCommentScoreRequest v = false) ∧
  (∃ v, SuggestCommentScoreRequest v = true ∧
        AnalyzeCommentRequest v = false).
Proof.
  split; [|split; [|split]].
  - intros v Hv. apply PerspectiveRequest_common in Hv.
    apply t_interface_object in Hv as (ps & -> & Hdecl).
    apply Forall_cons in Hdecl as [Hc Hdecl].
    apply Forall_cons in Hdecl as [Hx Hdecl].
    apply Forall_cons in Hdecl as [Hl Hdecl].
    apply Forall_cons in Hdecl as [Hi Hdecl].
    apply Forall_cons in Hdecl as [Ht _].
    apply has_required in Hc as (c & Hc & Hcomment).
    destruct (has_own_lookup _ _ _ Hc) as [-> ->].
    by rewrite <- !has_optional.
  - intros ps a Hps Ha. split.
    + unfold AnalyzeCommentRequest in *.
      rewrite t_interface_insert_undeclared; [done|].
      by repeat constructor.
    + apply t_interface_object in Hps as (? & [= <-] & Hdecl).
      unfold AnalyzeCommentRequest_members in Hdecl.
      apply Forall_cons in Hdecl as [Hc Hdecl].
      apply Forall_cons in Hdecl as [Hx Hdecl].
      apply Forall_cons in Hdecl as [_ Hdecl].
      apply Forall_cons in Hdecl as [Hl Hdecl].
      apply Forall_cons in Hdecl as [_ Hdecl].
      apply Forall_cons in Hdecl as [Ht Hdecl].
      apply Forall_cons in Hdecl as [_ Hdecl].
      apply Forall_cons in Hdecl as [Hi _].
      unfold SuggestCommentScoreRequest, SuggestCommentScoreRequest_members,
        t_interface. cbn [forallb].
      rewrite (has_property_insert_ne _ (required "comment" _)),
        (has_property_insert_ne _ (optional "context" _)),
        (has_property_insert_ne _ (optional "languages" _)),
        (has_property_insert_ne _ (optional "communityId" _)),
        (has_property_insert_ne _ (optional "clientToken" _)) by done.
      rewrite Hc, Hx, Hl, Hi, Ht. simpl.
      unfold has_property. simpl. rewrite lookup_insert_eq. simpl.
      simpl in Ha. by rewrite Ha.
  - by exists hello_request.
  - by exists hello_suggestion.
Qed.

Lemma PerspectiveRequest_overlap_witness :
  let a := obj [("TOXICITY", zero_summary)] in
  let v := VObject (<["attributeScores" := a]>
                      (list_to_map
                         [("comment", obj [("text", VString "hello")]);
                          ("requestedAttributes", obj [("TOXICITY", obj [])])]))
  in AnalyzeCommentRequest v = true ∧ SuggestCommentScoreRequest v = true.
Proof.
  apply (proj1 (proj2 PerspectiveRequest_overlap)); reflexivity.
Defined.

(** X8. A response may mirror its request: whatever a request of either
    kind holds under [languages] and [clientToken], present or not, an
    [AnalyzeCommentResponse] may hold under the same names, beside any
    attribute scores, and a [SuggestCommentScoreResponse] may hold the
    [clientToken]. *)
Theorem responses_mirror_request (req scores : value) :
  PerspectiveRequest req = true →
  t_index AttributeScore scores = true →
  AnalyzeCommentResponse
    (obj [("attributeScores", scores);
          ("languages", get req "languages");
          ("clientToken", get req "clientToken")]) = true ∧
  SuggestCommentScoreResponse (obj [("clientToken", get req "clientToken")])
  = true.
Proof.
  intros Hreq Hscores. apply PerspectiveRequest_common in Hreq.
  apply t_interface_object in Hreq as (ps & -> & Hdecl).
  apply Forall_cons in Hdecl as [_ Hdecl].
  apply Forall_cons in Hdecl as [_ Hdecl].
  apply Forall_cons in Hdecl as [Hl Hdecl].
  apply Forall_cons in Hdecl as [_ Hdecl].
  apply Forall_cons in Hdecl as [Ht _].
  apply has_optional in Hl, Ht.
  assert (∀ (t : type) x, x = VUndefined ∨ t x = true →
            is_undefined x || t x = true) as Hor.
  { intros t x [->| ->]; [done | apply orb_true_r]. }
  unfold AnalyzeCommentResponse, AnalyzeCommentResponse_members,
    SuggestCommentScoreResponse, SuggestCommentScoreResponse_members,
    t_interface, obj.
  cbn [forallb list_to_map foldr curry fst snd].
  unfold has_property. cbn [p_name p_optional p_type optional andb].
  simplify_map_eq. by rewrite Hscores, !Hor, orb_true_r.
Qed.

Lemma responses_mirror_request_witness :
  AnalyzeCommentResponse
    (obj [("attributeScores", obj [("TOXICITY", zero_summary)]);
          ("languages", get bilingual_request "languages");
          ("clientToken", get bilingual_request "clientToken")]) = true.
Proof.
  apply (responses_mirror_request bilingual_request
           (obj [("TOXICITY", zero_summary)])); reflexivity.
Defined.

(** X9. Scores and thresholds are numbers and nothing more: a [Score] must
    have a number under [value] and any number will do, be it negative,
    above one, infinite or [NaN], and the same holds of [scoreThreshold].
    Whatever a configuration holds under [scoreType] may be the [type] of a
    score. *)
Theorem scores_are_any_number :
  (∀ v, Score v = true → ∃ n, get v "value" = VNumber n) ∧
  (∀ n, Score (obj [("value", VNumber n)]) = true) ∧
  (∀ n, RequestedAttributeConfig (obj [("scoreThreshold", VNumber n)])
        = true) ∧
  (∀ c n, RequestedAttributeConfig c = true →
     Score (obj [("value", VNumber n); ("type", get c "scoreType")]) = true).
Proof.
  split; [|split; [done|split; [done|]]].
  - intros v Hv. apply t_interface_object in Hv as (ps & -> & Hdecl).
    apply Forall_cons in Hdecl as [Hn _].
    apply has_required in Hn as ([] & Hx & Hn); try done.
    eexists. simpl. by rewrite Hx.
  - intros c n Hc. apply t_interface_object in Hc as (ps & -> & Hdecl).
    apply Forall_cons in Hdecl as [Hs _].
    apply has_optional in Hs.
    unfold Score, Score_members, t_interface, obj.
    cbn [forallb list_to_map foldr curry fst snd].
    unfold has_property. cbn [p_name p_optional p_type optional required].
    simplify_map_eq. unfold get in Hs.
    destruct Hs as [Hs|Hs]; rewrite Hs; [done | by rewrite orb_true_r].
Qed.

Lemma scores_are_any_number_witness :
  Score (obj [("value", VNumber S754_nan);
              ("type", get (obj [("scoreType", VString "PERCENTILE")])
                           "scoreType")]) = true.
Proof.
  apply (proj2 (proj2 (proj2 scores_are_any_number))
           (obj [("scoreType", VString "PERCENTILE")])).
  reflexivity.
Defined.

(** X10. Attribute names are not restricted: for any list of names, the
    request that asks for each of them with the empty configuration is an
    [AnalyzeCommentRequest], and it holds a configuration under each of
    them. *)
Theorem requestedAttributes_any_names (names : list string) (text : string) :
  let attrs := obj ((λ k, (k, obj [])) <$> names) in
  let r := obj [("comment", obj [("text", VString text)]);
                ("requestedAttributes", attrs)] in
  AnalyzeCommentRequest r = true ∧
  ∀ k, k ∈ names → get (get r "requestedAttributes") k = obj [].
Proof.
  intros attrs r.
  set (m := list_to_map ((λ k, (k, obj [])) <$> names) : gmap string value).
  assert (∀ k x, m !! k = Some x → x = obj [] ∧ k ∈ names) as Hlk.
  { intros k x Hk. apply elem_of_list_to_map_2 in Hk.
    apply list_elem_of_fmap in Hk as (k' & [= -> ->] & Hk'). done. }
  split.
  - unfold r, AnalyzeCommentRequest, AnalyzeCommentRequest_members,
      t_interface, obj.
    cbn [forallb list_to_map foldr curry fst snd].
    unfold has_property. cbn [p_name p_optional p_type optional required].
    simplify_map_eq. rewrite !andb_true_r. simpl.
    apply andb_true_iff.
    split; [unfold has_property; simpl; by rewrite lookup_insert_eq|].
    apply all_values_Forall. intros k x Hk.
    destruct (Hlk k x Hk) as [-> _]. reflexivity.
  - intros k Hk. unfold r, attrs, obj. simpl. simplify_map_eq.
    change (default VUndefined (m !! k) = obj []).
    destruct (m !! k) as [x|] eqn:Hx.
    + destruct (Hlk k x Hx) as [-> _]. reflexivity.
    + apply not_elem_of_list_to_map in Hx. exfalso. apply Hx.
      rewrite <- list_fmap_compose. simpl.
      apply list_elem_of_fmap. by exists k.
Qed.

Lemma requestedAttributes_any_names_witness :
  let r := obj [("comment", obj [("text", VString "hello")]);
                ("requestedAttributes",
                 obj ((λ k, (k, obj [])) <$> ["TOXICITY"; "my attribute"; ""]))]
  in AnalyzeCommentRequest r = true ∧
     get (get r "requestedAttributes") "my attribute" = obj [].
Proof.
  intros r.
  destruct (requestedAttributes_any_names
              ["TOXICITY"; "my attribute"; ""] "hello") as [Hr Hget].
  split; [exact Hr|]. apply Hget. by repeat constructor.
Defined.
